(** * Faust tables: the mutation hooks of [faust/tables/table.py]

    A shallow embedding of class [Table]: the window-wrapping operations
    ([using_window], [hopping], [tumbling]), the missing-key read
    ([__missing__]) and the three hooks [on_key_get], [on_key_set] and
    [on_key_del], followed by the properties the table specification states
    about them.

    Python objects are mutable and the hooks talk to collaborators (the
    changelog, the TTL bookkeeping, the sensors, the logger), so the methods
    are written in a state-and-exception monad over a [World] that holds the
    table object, the ambient current event and what the collaborators have
    received so far.  The one-line delegations to the mapping protocol
    ([_has_key], [_get_key], [_set_key], [_del_key]) and the terminal
    rendering ([as_ansitable]) play no part in what follows. *)

From stdpp Require Import base gmap strings list.

Open Scope Z_scope.

(** Durations ([mode.Seconds]) are modelled as whole seconds, partitions and
    window identifiers as Python integers. *)
Definition Seconds := Z.
Definition WindowId := Z.

(** ** Exceptions and results *)

(** The exceptions that can leave a [Table] method.  [TypeError] is what the
    specification calls NoActiveContext, [KeyError] what it calls
    KeyNotFound. *)
Inductive Exc (KT : Type) : Type :=
  | TypeError (msg : string)
  | KeyError (key : KT)
  | InvalidWindowPolicy.

Arguments TypeError {KT} msg.
Arguments KeyError {KT} key.
Arguments InvalidWindowPolicy {KT}.

Inductive Res (E A : Type) : Type :=
  | Ok (a : A)
  | Raise (e : E).

Arguments Ok {E A} a.
Arguments Raise {E A} e.

(** ** Window policies ([faust/windows.py]) *)

Module windows.

Inductive WindowT : Type :=
  | Tumbling (size : Seconds) (expires : option Seconds)
  | Hopping (size step : Seconds) (expires : option Seconds).

Definition expires (w : WindowT) : option Seconds :=
  match w with
  | Tumbling _ e => e
  | Hopping _ _ e => e
  end.

Definition negative (d : option Seconds) : bool :=
  match d with
  | Some s => s <? 0
  | None => false
  end.

(** Modelled from the spec: the constructor [windows.HoppingWindow] lives in
    faust/windows.py, outside table.py.  Section 7:
    InvalidWindowPolicy is "raised at window-configuration time if
    step > size or negative durations are supplied". *)
Definition HoppingWindow {KT : Type} (size step : Seconds)
    (expires : option Seconds) : Res (Exc KT) WindowT :=
  if (size <? step) || (size <? 0) || (step <? 0) || negative expires
  then Raise InvalidWindowPolicy
  else Ok (Hopping size step expires).

(** Modelled from the spec: the constructor [windows.TumblingWindow], same
    file, same rule (a tumbling window has no step). *)
Definition TumblingWindow {KT : Type} (size : Seconds)
    (expires : option Seconds) : Res (Exc KT) WindowT :=
  if (size <? 0) || negative expires
  then Raise InvalidWindowPolicy
  else Ok (Tumbling size expires).

(** Modelled from the spec: the expiry deadline of a window (section 4.2),
    [(w+1)*size + expires] for a tumbling window, [w*step + size + expires]
    for a hopping one, and none when [expires] is unset. *)
Definition deadline (w : WindowT) (wid : WindowId) : option Seconds :=
  match w with
  | Tumbling size e => (λ e, (wid + 1) * size + e) <$> e
  | Hopping size step e => (λ e, wid * step + size + e) <$> e
  end.

End windows.

(** ** Events ([faust.streams.current_event]) *)

Record Message : Type := mkMessage {
  partition : Z;
  timestamp : Z;
  offset : Z;
}.

Record Event : Type := mkEvent {
  message : Message;
}.

(** The object returned by [using_window], [WindowWrapper(self, key_index)].
    Modelled from the spec: the constructor is in faust/tables/wrappers.py;
    section 2 has the wrapper sit above the table and section 4.3 makes
    [key_index] a storage-layout choice, so building one leaves the table
    as it is.  The wrapper keeps a reference to its table; a [World] holds
    exactly one table, so the reference carries no data here. *)
Record WindowWrapperT : Type := WindowWrapper {
  key_index : bool;
}.

(** Physical keys of a windowed table carry the identifier of their window
    (section 3: a WindowedEntry is keyed by logical key and window id);
    plain keys carry none. *)
Class WindowedKey (KT : Type) : Type :=
  window_id : KT → option WindowId.

Section Table.

Context {KT VT : Type} `{Countable KT} `{WindowedKey KT}.

(** ** The table object *)

Record Table : Type := mkTable {
  name : string;
  default : option (unit → VT);
  data : gmap KT VT;
  window : option windows.WindowT;
  _changelog_compacting : bool;
  _changelog_deleting : bool;
  _changelog_topic : option string;
}.

Definition set_window (v : option windows.WindowT) (t : Table) : Table :=
  mkTable (name t) (default t) (data t) v
    (_changelog_compacting t) (_changelog_deleting t) (_changelog_topic t).

Definition set_changelog_compacting (v : bool) (t : Table) : Table :=
  mkTable (name t) (default t) (data t) (window t)
    v (_changelog_deleting t) (_changelog_topic t).

Definition set_changelog_deleting (v : bool) (t : Table) : Table :=
  mkTable (name t) (default t) (data t) (window t)
    (_changelog_compacting t) v (_changelog_topic t).

Definition set_changelog_topic (v : option string) (t : Table) : Table :=
  mkTable (name t) (default t) (data t) (window t)
    (_changelog_compacting t) (_changelog_deleting t) v.

(** ** Collaborators *)

Record ChangelogRecord : Type := mkRecord {
  rec_key : KT;
  rec_value : option VT;
  rec_partition : Z;
  rec_serializer : option string;
}.

(** Calls received by the collaborators, in the order they were made. *)
Inductive Call : Type :=
  | SendChangelog (r : ChangelogRecord)
  | SetKeyTtl (key : KT) (partition : Z)
  | DelKeyTtl (key : KT) (partition : Z)
  | SensorOnGet (key : KT)
  | SensorOnSet (key : KT) (value : VT)
  | SensorOnDel (key : KT)
  | LoggerInfo (msg : string).

(** [self] is the table object, [event] what [current_event()] returns,
    [changelog] the records appended so far, [expiry] the pending
    ExpiryEntries (deadline per partition and window), [calls] the calls made
    to the collaborators so far. *)
Record World : Type := mkWorld {
  self : Table;
  event : option Event;
  changelog : list ChangelogRecord;
  expiry : gmap (Z * WindowId) Seconds;
  calls : list Call;
}.

Definition set_self (t : Table) (w : World) : World :=
  mkWorld t (event w) (changelog w) (expiry w) (calls w).

Definition add_record (r : ChangelogRecord) (w : World) : World :=
  mkWorld (self w) (event w) (changelog w ++ [r]) (expiry w) (calls w).

Definition set_expiry (e : gmap (Z * WindowId) Seconds) (w : World) : World :=
  mkWorld (self w) (event w) (changelog w) e (calls w).

Definition add_call (c : Call) (w : World) : World :=
  mkWorld (self w) (event w) (changelog w) (expiry w) (calls w ++ [c]).

(** ** The monad of methods

    A method takes the world to a result, a value or a raised exception,
    and the world it leaves behind; what was done before a [raise] stays
    done. *)

Definition M (A : Type) : Type := World → Res (Exc KT) A * World.

#[global] Instance M_ret : MRet M := λ A a w, (Ok a, w).

#[global] Instance M_bind : MBind M := λ A B f m w,
  match m w with
  | (Ok a, w') => f a w'
  | (Raise e, w') => (Raise e, w')
  end.

Definition raise {A : Type} (e : Exc KT) : M A := λ w, (Raise e, w).

Definition lift {A : Type} (r : Res (Exc KT) A) : M A := λ w, (r, w).

Definition read {A : Type} (f : World → A) : M A := λ w, (Ok (f w), w).

Definition update (f : World → World) : M unit := λ w, (Ok (), f w).

(** [self.attr = v] *)
Definition setattr (f : Table → Table) : M unit :=
  update (λ w, set_self (f (self w)) w).

(** [current_event()]: the ambient event, none outside stream iteration. *)
Definition current_event : M (option Event) := read event.

(** ** Methods of the base class ([faust/tables/base.py]) *)

(** Modelled from the spec: [_send_changelog] is defined in the base class
    Collection.  Section 2: the emitter "appends a mutation record (key,
    value-or-tombstone, partition, serializer-mode)"; section 4.1: the record
    is "tagged with the EventContext's partition".  An omitted
    [value_serializer] is [None]. *)
Definition _send_changelog (ev : Event) (key : KT) (value : option VT)
    (value_serializer : option string) : M unit :=
  let r := mkRecord key value (partition (message ev)) value_serializer in
  update (λ w, add_call (SendChangelog r) (add_record r w)).

(** Modelled from the spec: what the TTL bookkeeping does for a written key
    (section 4.4): for a windowed table with finite [expires] "an ExpiryEntry
    is inserted (or its deadline refreshed) for the affected (partition,
    WindowId)"; without a window, or with [expires] unset, nothing happens.
    The eviction of entries whose deadline has passed (clock advance, one
    tombstone per evicted window) is a step of the TTL manager of its own:
    the hooks hand the helper a key and a partition, no timestamp, and send
    one changelog record per call, so it is not part of this call. *)
Definition refresh_expiry (key : KT) (partition : Z) (w : World) : World :=
  match window (self w), window_id key with
  | Some win, Some wid =>
      match windows.deadline win wid with
      | Some d => set_expiry (<[(partition, wid) := d]> (expiry w)) w
      | None => w
      end
  | _, _ => w
  end.

(** Modelled from the spec: [_maybe_set_key_ttl] of the base class, the TTL
    update of a set (sections 4.1 and 4.4). *)
Definition _maybe_set_key_ttl (key : KT) (partition : Z) : M unit :=
  update (λ w, add_call (SetKeyTtl key partition)
                 (refresh_expiry key partition w)).

(** Modelled from the spec: what the TTL bookkeeping does for a deleted key.
    Section 3: an ExpiryEntry is "removed when the tombstone for that window
    has been emitted", and section 4.4: it "is removed once its tombstone has
    been emitted"; [on_key_del] has sent the tombstone when it makes this
    call.  Without a window, or with [expires] unset, nothing happens. *)
Definition forget_expiry (key : KT) (partition : Z) (w : World) : World :=
  match window (self w), window_id key with
  | Some win, Some wid =>
      match windows.deadline win wid with
      | Some _ => set_expiry (delete (partition, wid) (expiry w)) w
      | None => w
      end
  | _, _ => w
  end.

(** Modelled from the spec: [_maybe_del_key_ttl] of the base class, the TTL
    update of a delete.  table.py shows a helper of its own for deletes,
    called after the tombstone has been sent. *)
Definition _maybe_del_key_ttl (key : KT) (partition : Z) : M unit :=
  update (λ w, add_call (DelKeyTtl key partition)
                 (forget_expiry key partition w)).

(** Modelled from the spec: the sensor callbacks of the base class; section
    2: sensors are "purely observational, never gate correctness". *)
Definition _sensor_on_get (key : KT) : M unit :=
  update (add_call (SensorOnGet key)).

Definition _sensor_on_set (key : KT) (value : VT) : M unit :=
  update (add_call (SensorOnSet key value)).

Definition _sensor_on_del (key : KT) : M unit :=
  update (add_call (SensorOnDel key)).

(** [logger.info(msg, ...)]: the elapsed wall-clock time that fills the
    format is not modelled. *)
Definition logger_info (msg : string) : M unit :=
  update (add_call (LoggerInfo msg)).

(** ** class Table *)

(** [Table.using_window]: four attribute assignments, then the wrapper. *)
Definition using_window (window : windows.WindowT) (key_index : bool)
    : M WindowWrapperT :=
  setattr (set_window (Some window)) ;;
  setattr (set_changelog_compacting true) ;;
  setattr (set_changelog_deleting true) ;;
  setattr (set_changelog_topic None) ;;
  mret (WindowWrapper key_index).

(** [Table.hopping]: the window is built first (argument evaluation), then
    handed to [using_window]. *)
Definition hopping (size step : Seconds) (expires : option Seconds)
    (key_index : bool) : M WindowWrapperT :=
  window ← lift (windows.HoppingWindow size step expires);
  using_window window key_index.

(** [Table.tumbling] *)
Definition tumbling (size : Seconds) (expires : option Seconds)
    (key_index : bool) : M WindowWrapperT :=
  window ← lift (windows.TumblingWindow size expires);
  using_window window key_index.

(** [Table.__missing__]: what a read of an absent key evaluates to. *)
Definition __missing__ (key : KT) : M VT :=
  d ← read (λ w, default (self w));
  match d with
  | Some f => mret (f ())
  | None => raise (KeyError key)
  end.

(** [Table.on_key_get] *)
Definition on_key_get (key : KT) : M unit :=
  _sensor_on_get key.

(** [Table.on_key_set].  [start = time.time()] reads the wall clock and
    changes nothing. *)
Definition on_key_set (key : KT) (value : VT) : M unit :=
  ev ← current_event;
  match ev with
  | None =>
      raise (TypeError "Setting table key from outside of stream iteration")
  | Some ev =>
      _send_changelog ev key (Some value) None ;;
      let partition := partition (message ev) in
      _maybe_set_key_ttl key partition ;;
      _sensor_on_set key value ;;
      logger_info "on_key_set took %ss"
  end.

(** [Table.on_key_del] *)
Definition on_key_del (key : KT) : M unit :=
  ev ← current_event;
  match ev with
  | None =>
      raise (TypeError "Deleting table key from outside of stream iteration")
  | Some ev =>
      _send_changelog ev key None (Some "raw") ;;
      let partition := partition (message ev) in
      _maybe_del_key_ttl key partition ;;
      _sensor_on_del key
  end.

(** ** Runs of hook calls

    A caller drives the hooks one after another, [for x in xs: f(x)]; an
    exception ends the run where it is raised. *)
Fixpoint for_each {A : Type} (f : A → M unit) (xs : list A) : M unit :=
  match xs with
  | [] => mret ()
  | x :: xs => f x ;; for_each f xs
  end.

(** One mutation of the table as the hooks see it. *)
Inductive Mutation : Type :=
  | SetKey (key : KT) (value : VT)
  | DelKey (key : KT).

Definition on_mutation (m : Mutation) : M unit :=
  match m with
  | SetKey key value => on_key_set key value
  | DelKey key => on_key_del key
  end.

(** The changelog record of a mutation made under event [ev]. *)
Definition record_of (ev : Event) (m : Mutation) : ChangelogRecord :=
  match m with
  | SetKey key value =>
      mkRecord key (Some value) (partition (message ev)) None
  | DelKey key => mkRecord key None (partition (message ev)) (Some "raw")
  end.

End Table.

Arguments Table KT VT {_ _}.
Arguments World KT VT {_ _}.
Arguments ChangelogRecord KT VT : clear implicits.
Arguments Call KT VT : clear implicits.
Arguments Mutation KT VT : clear implicits.

(** ** Sample inputs

    A table named orders whose keys pair a logical key with its window, an
    event on partition 3, and worlds with and without an active event. *)

#[global] Instance pair_windowed_key : WindowedKey (string * WindowId) :=
  λ key, Some (snd key).

Definition orders : Table (string * WindowId) Z :=
  mkTable "orders" (Some (λ _, 0)) ∅ None false false
    (Some "orders-changelog").

Definition orders_no_default : Table (string * WindowId) Z :=
  mkTable "orders" None ∅ None false false (Some "orders-changelog").


Definition orders_stored : Table (string * WindowId) Z :=
  mkTable "orders" (Some (λ _, 0)) {[ ("j", 1) := 5 ]} None false false
    (Some "orders-changelog").

Definition ev3 : Event := mkEvent (mkMessage 3 100 42).

Definition idle (t : Table (string * WindowId) Z)
    : World (string * WindowId) Z :=
  mkWorld t None [] ∅ [].

Definition active (t : Table (string * WindowId) Z)
    : World (string * WindowId) Z :=
  mkWorld t (Some ev3) [] ∅ [].


(** * Properties *)

Section Properties.

Context {KT VT : Type} `{Countable KT} `{WindowedKey KT}.

Implicit Types (w : World KT VT) (key : KT) (value : VT) (ev : Event).

(** Unfolds a method down to the world it computes. *)
Ltac run :=
  unfold on_key_get, on_key_set, on_key_del, __missing__, using_window,
    hopping, tumbling, _send_changelog, _maybe_set_key_ttl,
    _maybe_del_key_ttl, _sensor_on_get, _sensor_on_set, _sensor_on_del,
    logger_info, setattr, current_event, read, update, raise, lift,
    mbind, M_bind, mret, M_ret;
  cbn.

(** What a hook leaves behind when an event is active. *)
Definition after_set (ev : Event) key value w : World KT VT :=
  let r := mkRecord key (Some value) (partition (message ev)) None in
  add_call (LoggerInfo "on_key_set took %ss")
    (add_call (SensorOnSet key value)
      (add_call (SetKeyTtl key (partition (message ev)))
        (refresh_expiry key (partition (message ev))
          (add_call (SendChangelog r) (add_record r w))))).

Definition after_del (ev : Event) key w : World KT VT :=
  let r := mkRecord key None (partition (message ev)) (Some "raw") in
  add_call (SensorOnDel key)
    (add_call (DelKeyTtl key (partition (message ev)))
      (forget_expiry key (partition (message ev))
        (add_call (SendChangelog r) (add_record r w)))).

(** The deadline of the specification's expiry scenario: tumbling windows
    of 60 seconds kept for 30, window 1 spans [60,120) and expires at 150. *)
Example deadline_tumbling_60_30 :
  windows.deadline (windows.Tumbling 60 (Some 30)) 1 = Some 150.
Proof. reflexivity. Qed.

Example deadline_hopping_60_20_30 :
  windows.deadline (windows.Hopping 60 20 (Some 30)) 5 = Some 190.
Proof. reflexivity. Qed.

Example deadline_without_expires :
  windows.deadline (windows.Tumbling 60 None) 1 = None.
Proof. reflexivity. Qed.

(** The TTL update of a key touches neither the table nor the changelog nor
    the current event. *)
Lemma refresh_expiry_self key p w :
  self (refresh_expiry key p w) = self w.
Proof.
  unfold refresh_expiry.
  destruct (window (self w)) as [win|]; [|done].
  destruct (window_id key) as [wid|]; [|done].
  by destruct (windows.deadline win wid).
Qed.

Lemma refresh_expiry_changelog key p w :
  changelog (refresh_expiry key p w) = changelog w.
Proof.
  unfold refresh_expiry.
  destruct (window (self w)) as [win|]; [|done].
  destruct (window_id key) as [wid|]; [|done].
  by destruct (windows.deadline win wid).
Qed.

Lemma refresh_expiry_calls key p w :
  calls (refresh_expiry key p w) = calls w.
Proof.
  unfold refresh_expiry.
  destruct (window (self w)) as [win|]; [|done].
  destruct (window_id key) as [wid|]; [|done].
  by destruct (windows.deadline win wid).
Qed.

Lemma forget_expiry_self key p w :
  self (forget_expiry key p w) = self w.
Proof.
  unfold forget_expiry.
  destruct (window (self w)) as [win|]; [|done].
  destruct (window_id key) as [wid|]; [|done].
  by destruct (windows.deadline win wid).
Qed.

Lemma forget_expiry_changelog key p w :
  changelog (forget_expiry key p w) = changelog w.
Proof.
  unfold forget_expiry.
  destruct (window (self w)) as [win|]; [|done].
  destruct (window_id key) as [wid|]; [|done].
  by destruct (windows.deadline win wid).
Qed.

Lemma forget_expiry_calls key p w :
  calls (forget_expiry key p w) = calls w.
Proof.
  unfold forget_expiry.
  destruct (window (self w)) as [win|]; [|done].
  destruct (window_id key) as [wid|]; [|done].
  by destruct (windows.deadline win wid).
Qed.

Lemma forget_expiry_event key p w :
  event (forget_expiry key p w) = event w.
Proof.
  unfold forget_expiry.
  destruct (window (self w)) as [win|]; [|done].
  destruct (window_id key) as [wid|]; [|done].
  by destruct (windows.deadline win wid).
Qed.




Lemma on_key_set_active w ev key value :
  event w = Some ev →
  on_key_set key value w = (Ok (), after_set ev key value w).
Proof. intros Hev. run. by rewrite Hev. Qed.

Lemma on_key_del_active w ev key :
  event w = Some ev →
  on_key_del key w = (Ok (), after_del ev key w).
Proof. intros Hev. run. by rewrite Hev. Qed.

Lemma using_window_world w win ki :
  using_window win ki w =
    (Ok (WindowWrapper ki),
     set_self (mkTable (name (self w)) (default (self w)) (data (self w))
                 (Some win) true true None) w).
Proof. by run. Qed.

Lemma hopping_outcome w size step expires ki :
  hopping size step expires ki w =
    match windows.HoppingWindow (KT:=KT) size step expires with
    | Ok hw => using_window hw ki w
    | Raise e => (Raise e, w)
    end.
Proof.
  unfold hopping, mbind, M_bind, lift.
  by destruct (windows.HoppingWindow size step expires).
Qed.

Lemma tumbling_outcome w size expires ki :
  tumbling size expires ki w =
    match windows.TumblingWindow (KT:=KT) size expires with
    | Ok tw => using_window tw ki w
    | Raise e => (Raise e, w)
    end.
Proof.
  unfold tumbling, mbind, M_bind, lift.
  by destruct (windows.TumblingWindow size expires).
Qed.

Lemma hooks_keep_table w key value :
  self (snd (on_key_get key w)) = self w
  ∧ self (snd (on_key_set key value w)) = self w
  ∧ self (snd (on_key_del key w)) = self w
  ∧ self (snd (__missing__ key w)) = self w.
Proof.
  split; [by run|].
  destruct (event w) as [ev|] eqn:Hev.
  - rewrite (on_key_set_active w ev), (on_key_del_active w ev) by done.
    unfold after_set, after_del. cbn.
    rewrite refresh_expiry_self, forget_expiry_self. cbn.
    repeat split. run. by destruct (default (self w)).
  - run. rewrite Hev. repeat split. by destruct (default (self w)).
Qed.

(** C1. With no active event ([current_event()] is none), [on_key_set] and
    [on_key_del] raise the TypeError of a mutation outside stream iteration,
    for every key and value, and leave the whole world as it was: the store,
    the changelog, the TTL bookkeeping, and no collaborator is called. *)
Theorem mutation_outside_event_raises w key value :
  event w = None →
  on_key_set key value w =
    (Raise (TypeError "Setting table key from outside of stream iteration"),
     w)
  ∧ on_key_del key w =
    (Raise (TypeError "Deleting table key from outside of stream iteration"),
     w).
Proof.
  intros Hev. split; run; by rewrite Hev.
Qed.

(** C2 (as amended). A successful [on_key_set] or [on_key_del] does not
    write the backing store: the table object is left as it was.  Its side
    effects are, in this order, the changelog record, the TTL update and the
    sensor notification ([on_key_set] then logs how long it took). *)
Theorem hook_effects_in_order w ev key value :
  event w = Some ev →
  (∃ w', on_key_set key value w = (Ok (), w')
     ∧ self w' = self w
     ∧ calls w' = calls w ++
         [ SendChangelog
             (mkRecord key (Some value) (partition (message ev)) None);
           SetKeyTtl key (partition (message ev));
           SensorOnSet key value;
           LoggerInfo "on_key_set took %ss" ])
  ∧ (∃ w', on_key_del key w = (Ok (), w')
     ∧ self w' = self w
     ∧ calls w' = calls w ++
         [ SendChangelog
             (mkRecord key None (partition (message ev)) (Some "raw"));
           DelKeyTtl key (partition (message ev));
           SensorOnDel key ]).
Proof.
  intros Hev. split.
  - exists (after_set ev key value w). split; [by apply on_key_set_active|].
    unfold after_set. cbn. rewrite refresh_expiry_self, refresh_expiry_calls.
    cbn. by rewrite <- !app_assoc.
  - exists (after_del ev key w). split; [by apply on_key_del_active|].
    unfold after_del. cbn. rewrite forget_expiry_self, forget_expiry_calls.
    cbn. by rewrite <- !app_assoc.
Qed.

(** C3. Every record that a set or a delete appends to the changelog carries
    the partition of the event that was current when the hook was called:
    the hook appends exactly one record, and its partition is that of the
    event. *)
Theorem changelog_record_has_event_partition w ev key value :
  event w = Some ev →
  (∃ w' r, on_key_set key value w = (Ok (), w')
     ∧ changelog w' = changelog w ++ [r]
     ∧ rec_partition r = partition (message ev))
  ∧ (∃ w' r, on_key_del key w = (Ok (), w')
     ∧ changelog w' = changelog w ++ [r]
     ∧ rec_partition r = partition (message ev)).
Proof.
  intros Hev. split.
  - eexists _, _. split; [by apply on_key_set_active|].
    unfold after_set. cbn. by rewrite refresh_expiry_changelog.
  - eexists _, _. split; [by apply on_key_del_active|].
    unfold after_del. cbn. by rewrite forget_expiry_changelog.
Qed.

(** C4. Reading an absent key: with a default factory the read evaluates to
    a fresh [default()] and nothing is written back, the key is still absent
    afterwards; without one it raises the KeyError of that key. *)
Theorem missing_key_reads_default w key :
  data (self w) !! key = None →
  match default (self w) with
  | Some f =>
      __missing__ key w = (Ok (f ()), w)
      ∧ data (self (snd (__missing__ key w))) !! key = None
  | None => __missing__ key w = (Raise (KeyError key), w)
  end.
Proof.
  intros Habsent. run. by destruct (default (self w)).
Qed.

(** C5 (as amended). The wrapping operation sets the window policy to the
    one it is given and forces the compacting and deleting flags to true;
    for [hopping] and [tumbling] the policy installed is the window their
    constructor returns.  The hooks and the missing-key read leave the table
    object, hence the policy and the flags, as they are.  Nothing guards the
    policy against a second wrapping: a later call replaces it. *)
Theorem wrapping_sets_window_policy w win ki key value size step expires :
  (∃ w', using_window win ki w = (Ok (WindowWrapper ki), w')
     ∧ window (self w') = Some win
     ∧ _changelog_compacting (self w') = true
     ∧ _changelog_deleting (self w') = true
     ∧ self (snd (on_key_get key w')) = self w'
     ∧ self (snd (on_key_set key value w')) = self w'
     ∧ self (snd (on_key_del key w')) = self w'
     ∧ self (snd (__missing__ key w')) = self w')
  ∧ (∀ win2 ki2,
       window (self (snd (using_window win2 ki2
                            (snd (using_window win ki w))))) = Some win2)
  ∧ (∀ hw, windows.HoppingWindow (KT:=KT) size step expires = Ok hw →
       ∃ w', hopping size step expires ki w = (Ok (WindowWrapper ki), w')
         ∧ window (self w') = Some hw
         ∧ _changelog_compacting (self w') = true
         ∧ _changelog_deleting (self w') = true)
  ∧ (∀ tw, windows.TumblingWindow (KT:=KT) size expires = Ok tw →
       ∃ w', tumbling size expires ki w = (Ok (WindowWrapper ki), w')
         ∧ window (self w') = Some tw
         ∧ _changelog_compacting (self w') = true
         ∧ _changelog_deleting (self w') = true).
Proof.
  split; [|split; [|split]].
  - eexists. split; [apply using_window_world|].
    do 3 (split; [done|]). apply hooks_keep_table.
  - intros win2 ki2. by rewrite !using_window_world.
  - intros hw Hhw. eexists.
    split; [by rewrite hopping_outcome, Hhw, using_window_world|done].
  - intros tw Htw. eexists.
    split; [by rewrite tumbling_outcome, Htw, using_window_world|done].
Qed.

(** C6. With an active event, [on_key_del] appends exactly one changelog
    record for the key, and it is a tombstone: no value, serializer raw.
    The record of [on_key_set] carries the value and asks for no particular
    serializer. *)
Theorem delete_emits_tombstone w ev key value :
  event w = Some ev →
  (∃ w' r, on_key_del key w = (Ok (), w')
     ∧ changelog w' = changelog w ++ [r]
     ∧ rec_key r = key
     ∧ rec_value r = None
     ∧ rec_serializer r = Some "raw")
  ∧ (∃ w' r, on_key_set key value w = (Ok (), w')
     ∧ changelog w' = changelog w ++ [r]
     ∧ rec_key r = key
     ∧ rec_value r = Some value
     ∧ rec_serializer r = None).
Proof.
  intros Hev. split.
  - eexists _, _. split; [by apply on_key_del_active|].
    unfold after_del. cbn. by rewrite forget_expiry_changelog.
  - eexists _, _. split; [by apply on_key_set_active|].
    unfold after_set. cbn. by rewrite refresh_expiry_changelog.
Qed.



(** C9. [on_key_get] never looks at the current event: whatever the world,
    it returns normally after notifying the sensor, and changes nothing
    else.  [on_key_set] and [on_key_del] succeed exactly when an event is
    active. *)
Theorem read_hook_is_not_gated w key value :
  on_key_get key w =
    (Ok (),
     mkWorld (self w) (event w) (changelog w) (expiry w)
       (calls w ++ [SensorOnGet key]))
  ∧ match event w with
    | Some _ =>
        fst (on_key_set key value w) = Ok ()
        ∧ fst (on_key_del key w) = Ok ()
    | None =>
        (∃ msg, fst (on_key_set key value w) = Raise (TypeError msg))
        ∧ (∃ msg, fst (on_key_del key w) = Raise (TypeError msg))
    end.
Proof.
  split; [by run|].
  destruct (event w) as [ev|] eqn:Hev.
  - by rewrite (on_key_set_active w ev), (on_key_del_active w ev).
  - run. rewrite Hev. eauto.
Qed.

(** C10. [using_window] assigns four attributes of the table, the window,
    the compacting flag, the deleting flag and the cached changelog topic
    (reset to none), and nothing else: the name, the default factory and
    every stored pair are kept, and so is the rest of the world. *)
Theorem using_window_frame w win ki :
  using_window win ki w =
    (Ok (WindowWrapper ki),
     mkWorld
       (mkTable (name (self w)) (default (self w)) (data (self w))
          (Some win) true true None)
       (event w) (changelog w) (expiry w) (calls w)).
Proof. by run. Qed.

(** ** Further properties of the methods *)

Lemma on_mutation_active w ev m :
  event w = Some ev →
  ∃ w', on_mutation m w = (Ok (), w')
    ∧ self w' = self w
    ∧ event w' = event w
    ∧ changelog w' = changelog w ++ [record_of ev m].
Proof.
  intros Hev. destruct m as [key value|key]; cbn.
  - exists (after_set ev key value w). split; [by apply on_key_set_active|].
    unfold after_set, refresh_expiry. cbn.
    destruct (window (self w)) as [win|]; [|done].
    destruct (window_id key) as [wid|]; [|done].
    by destruct (windows.deadline win wid).
  - exists (after_del ev key w). split; [by apply on_key_del_active|].
    unfold after_del, forget_expiry. cbn.
    destruct (window (self w)) as [win|]; [|done].
    destruct (window_id key) as [wid|]; [|done].
    by destruct (windows.deadline win wid).
Qed.

Lemma for_each_cons {A : Type} (f : A → M unit) x xs w :
  for_each f (x :: xs) w =
    match f x w with
    | (Ok _, w') => for_each f xs w'
    | (Raise e, w') => (Raise e, w')
    end.
Proof. reflexivity. Qed.

(** X1. Wrapping twice is wrapping once with the last window: whatever the
    first call did to the table is overwritten by the second, which leaves
    the world of a single [using_window] with its own window. *)
Theorem last_wrapping_wins w win1 ki1 win2 ki2 :
  using_window win2 ki2 (snd (using_window win1 ki1 w))
  = using_window win2 ki2 w.
Proof. by rewrite !using_window_world. Qed.

(** X2. [hopping] and [tumbling] are [using_window] on the window they
    build: when the constructor returns a window, they return the wrapper
    with the [key_index] they were given and leave the world of
    [using_window] on that very window; when it raises, they raise the same
    and the world, table included, is as it was. *)
Theorem window_shortcuts_delegate w size step expires ki :
  match windows.HoppingWindow (KT:=KT) size step expires with
  | Ok hw =>
      hopping size step expires ki w =
        (Ok (WindowWrapper ki), snd (using_window hw ki w))
  | Raise e => hopping size step expires ki w = (Raise e, w)
  end
  ∧ match windows.TumblingWindow (KT:=KT) size expires with
    | Ok tw =>
        tumbling size expires ki w =
          (Ok (WindowWrapper ki), snd (using_window tw ki w))
    | Raise e => tumbling size expires ki w = (Raise e, w)
    end.
Proof.
  rewrite hopping_outcome, tumbling_outcome. split.
  - destruct (windows.HoppingWindow size step expires) as [hw|err]; [|done].
    by rewrite using_window_world.
  - destruct (windows.TumblingWindow size expires) as [tw|err]; [|done].
    by rewrite using_window_world.
Qed.

(** X3. Under an active event a run of sets and deletes never fails, leaves
    the table object and the current event as they were, and appends one
    changelog record per mutation, in the order of the calls. *)
Theorem mutations_logged_in_order w ev ms :
  event w = Some ev →
  ∃ w', for_each on_mutation ms w = (Ok (), w')
    ∧ self w' = self w
    ∧ event w' = event w
    ∧ changelog w' = changelog w ++ (record_of ev <$> ms).
Proof.
  revert w. induction ms as [|m ms IH]; intros w Hev.
  - exists w. cbn. by rewrite app_nil_r.
  - destruct (on_mutation_active w ev m Hev) as (w1 & Hm & Hself & Hevent & Hlog).
    destruct (IH w1) as (w2 & Hrun & Hself2 & Hevent2 & Hlog2);
      [by rewrite Hevent|].
    exists w2. rewrite for_each_cons, Hm. split; [done|].
    rewrite Hself2, Hevent2, Hlog2, Hlog, Hself, Hevent.
    by rewrite <- app_assoc.
Qed.

(** X4. With no active event a run of sets and deletes changes nothing, and
    it returns normally only when it is empty: the first mutation raises
    and none of the later ones is tried. *)
Theorem mutations_outside_event_do_nothing w ms :
  event w = None →
  snd (for_each on_mutation ms w) = w
  ∧ (fst (for_each on_mutation ms w) = Ok () ↔ ms = []).
Proof.
  intros Hev. destruct ms as [|m ms]; [done|].
  rewrite for_each_cons.
  assert (∃ msg, on_mutation m w = (Raise (TypeError msg), w)) as [msg ->].
  { destruct m as [key value|key]; cbn; run; rewrite Hev; eauto. }
  cbn. split; [done|]. split; discriminate.
Qed.

(** X5. A run of reads never fails, with or without an active event, and
    does nothing but notify the sensor once per key, in the order of the
    reads. *)
Theorem reads_notify_in_order w keys :
  for_each on_key_get keys w =
    (Ok (),
     mkWorld (self w) (event w) (changelog w) (expiry w)
       (calls w ++ (SensorOnGet <$> keys))).
Proof.
  revert w. induction keys as [|key keys IH]; intros w.
  - cbn. rewrite app_nil_r. by destruct w.
  - rewrite for_each_cons.
    replace (on_key_get key w) with
      (Ok () : Res (Exc KT) (), add_call (SensorOnGet key) w) by by run.
    rewrite IH. cbn. by rewrite <- app_assoc.
Qed.

(** X6. Wrapping a table in a window does not change what a missing key
    reads as: [__missing__] gives the same result, default value or
    KeyError, after [using_window] as before it, and leaves the wrapped
    table as it is. *)
Theorem wrapping_keeps_missing_key_read w win ki key :
  fst (__missing__ key (snd (using_window win ki w)))
    = fst (__missing__ key w)
  ∧ snd (__missing__ key (snd (using_window win ki w)))
    = snd (using_window win ki w).
Proof.
  rewrite using_window_world. run. by destruct (default (self w)).
Qed.

End Properties.

(** * The properties at the sample inputs *)

Lemma mutation_outside_event_raises_witness :
  event (idle orders) = None
  ∧ on_key_set ("k", 1) 7 (idle orders) =
      (Raise (TypeError "Setting table key from outside of stream iteration"),
       idle orders)
  ∧ on_key_del ("k", 1) (idle orders) =
      (Raise (TypeError "Deleting table key from outside of stream iteration"),
       idle orders).
Proof.
  split; [reflexivity|].
  apply (mutation_outside_event_raises (idle orders) ("k", 1) 7).
  reflexivity.
Defined.

(** C2, counterexample. A successful [on_key_set] of 7 at a fresh key leaves
    the key absent from the store, and a successful [on_key_del] of a stored
    key leaves its value in place: the hooks apply no store mutation, first
    or otherwise. *)
Lemma hooks_leave_store_unwritten :
  fst (on_key_set ("k", 1) 7 (active orders)) = Ok ()
  ∧ data (self (snd (on_key_set ("k", 1) 7 (active orders)))) !! ("k", 1)
      = None
  ∧ fst (on_key_del ("j", 1) (active orders_stored)) = Ok ()
  ∧ data (self (snd (on_key_del ("j", 1) (active orders_stored))))
      !! ("j", 1) = Some 5.
Proof. repeat split; vm_compute; reflexivity. Qed.

Lemma hook_effects_in_order_witness :
  event (active orders) = Some ev3
  ∧ (∃ w', on_key_set ("k", 1) 7 (active orders) = (Ok (), w')
       ∧ self w' = orders
       ∧ calls w' =
           [ SendChangelog (mkRecord ("k", 1) (Some 7) 3 None);
             SetKeyTtl ("k", 1) 3;
             SensorOnSet ("k", 1) 7;
             LoggerInfo "on_key_set took %ss" ])
  ∧ (∃ w', on_key_del ("k", 1) (active orders) = (Ok (), w')
       ∧ self w' = orders
       ∧ calls w' =
           [ SendChangelog (mkRecord ("k", 1) None 3 (Some "raw"));
             DelKeyTtl ("k", 1) 3;
             SensorOnDel ("k", 1) ]).
Proof.
  split; [reflexivity|].
  apply (hook_effects_in_order (active orders) ev3 ("k", 1) 7).
  reflexivity.
Defined.

Lemma changelog_record_has_event_partition_witness :
  event (active orders) = Some ev3
  ∧ (∃ w' r, on_key_set ("k", 1) 7 (active orders) = (Ok (), w')
       ∧ changelog w' = [r] ∧ rec_partition r = 3)
  ∧ (∃ w' r, on_key_del ("k", 1) (active orders) = (Ok (), w')
       ∧ changelog w' = [r] ∧ rec_partition r = 3).
Proof.
  split; [reflexivity|].
  apply (changelog_record_has_event_partition (active orders) ev3 ("k", 1) 7).
  reflexivity.
Defined.

Lemma missing_key_reads_default_witness :
  data (self (idle orders)) !! ("k", 1) = None
  ∧ (__missing__ ("k", 1) (idle orders) = (Ok 0, idle orders)
     ∧ data (self (snd (__missing__ ("k", 1) (idle orders)))) !! ("k", 1)
         = None)
  ∧ data (self (idle orders_no_default)) !! ("k", 1) = None
  ∧ __missing__ ("k", 1) (idle orders_no_default) =
      (Raise (KeyError ("k", 1)), idle orders_no_default).
Proof.
  split; [reflexivity|]. split.
  - apply (missing_key_reads_default (idle orders) ("k", 1)). reflexivity.
  - split; [reflexivity|].
    apply (missing_key_reads_default (idle orders_no_default) ("k", 1)).
    reflexivity.
Defined.

(** C5, counterexample. A table wrapped in a tumbling window of 60 seconds
    and then in one of 30 seconds ends with the second policy: the first was
    not immutable. *)
Lemma second_wrapping_replaces_window :
  window (self (snd (using_window (windows.Tumbling 60 None) false
                       (idle orders))))
    = Some (windows.Tumbling 60 None)
  ∧ window (self (snd (using_window (windows.Tumbling 30 None) false
                         (snd (using_window (windows.Tumbling 60 None) false
                                 (idle orders))))))
    = Some (windows.Tumbling 30 None)
  ∧ window (self (snd (using_window (windows.Tumbling 30 None) false
                         (snd (using_window (windows.Tumbling 60 None) false
                                 (idle orders))))))
    ≠ window (self (snd (using_window (windows.Tumbling 60 None) false
                           (idle orders)))).
Proof. repeat split; vm_compute; congruence. Qed.

Lemma delete_emits_tombstone_witness :
  event (active orders) = Some ev3
  ∧ (∃ w' r, on_key_del ("k", 1) (active orders) = (Ok (), w')
       ∧ changelog w' = [r]
       ∧ rec_key r = ("k", 1)
       ∧ rec_value r = None
       ∧ rec_serializer r = Some "raw")
  ∧ (∃ w' r, on_key_set ("k", 1) 7 (active orders) = (Ok (), w')
       ∧ changelog w' = [r]
       ∧ rec_key r = ("k", 1)
       ∧ rec_value r = Some 7
       ∧ rec_serializer r = None).
Proof.
  split; [reflexivity|].
  apply (delete_emits_tombstone (active orders) ev3 ("k", 1) 7).
  reflexivity.
Defined.

Lemma wrapping_sets_window_policy_witness :
  windows.HoppingWindow (KT:=string * WindowId) 60 20 (Some 30)
    = Ok (windows.Hopping 60 20 (Some 30))
  ∧ ∃ w', hopping 60 20 (Some 30) true (idle orders)
            = (Ok (WindowWrapper true), w')
      ∧ window (self w') = Some (windows.Hopping 60 20 (Some 30))
      ∧ _changelog_compacting (self w') = true
      ∧ _changelog_deleting (self w') = true.
Proof.
  split; [reflexivity|].
  apply (wrapping_sets_window_policy (idle orders)
           (windows.Tumbling 60 None) true ("k", 1) 7 60 20 (Some 30)).
  reflexivity.
Defined.




Lemma mutations_logged_in_order_witness :
  event (active orders) = Some ev3
  ∧ ∃ w', for_each on_mutation
            [SetKey ("k", 1) 7; DelKey ("k", 1); SetKey ("j", 2) 9]
            (active orders) = (Ok (), w')
      ∧ self w' = orders
      ∧ event w' = Some ev3
      ∧ changelog w' =
          [ mkRecord ("k", 1) (Some 7) 3 None;
            mkRecord ("k", 1) None 3 (Some "raw");
            mkRecord ("j", 2) (Some 9) 3 None ].
Proof.
  split; [reflexivity|].
  apply (mutations_logged_in_order (active orders) ev3
           [SetKey ("k", 1) 7; DelKey ("k", 1); SetKey ("j", 2) 9]).
  reflexivity.
Defined.

Lemma mutations_outside_event_do_nothing_witness :
  event (idle orders) = None
  ∧ snd (for_each on_mutation [SetKey ("k", 1) 7; DelKey ("k", 1)]
           (idle orders)) = idle orders
  ∧ (fst (for_each on_mutation [SetKey ("k", 1) 7; DelKey ("k", 1)]
            (idle orders)) = Ok ()
     ↔ [SetKey ("k", 1) 7; DelKey ("k", 1)] = []).
Proof.
  split; [reflexivity|].
  apply (mutations_outside_event_do_nothing (idle orders)
           [SetKey ("k", 1) 7; DelKey ("k", 1)]).
  reflexivity.
Defined.
